(** * my_calendar: leap years, weekday names and week numbers

    A shallow embedding of [my_calendar.py].  Python [int] is [Z] (unbounded),
    [%] and [//] with a positive right operand are [Z.modulo] and [Z.div]
    (both round toward negative infinity, as Python does), [str] is [string],
    [float] is the binary64 of [PrimFloat], a [dict] is a [gmap], and a raised
    exception is the [Raise] branch of [result]. *)

From Stdlib Require Import ZArith Lia Bool.
From Stdlib Require Import Floats QArith Qround.
From stdpp Require Import gmap strings.

Local Open Scope Z_scope.

(** ** Exceptions and results *)

(** The exceptions the module can raise.  [ValueError] is raised by the
    explicit guards of [day_of_week] (the specification calls it
    [InvalidInput]); [KeyError] by a subscript on a dict that lacks the key;
    [OverflowError] and [ValueError] again by [int()] on an infinity or a
    NaN. *)
Inductive exn : Type :=
  | ValueError (msg : string)
  | KeyError (key : Z)
  | OverflowError (msg : string).

Inductive result (A : Type) : Type :=
  | Ok (a : A)
  | Raise (e : exn).

Arguments Ok {A} a.
Arguments Raise {A} e.

(** Sequencing: the first exception raised aborts the rest. *)
#[global] Instance result_ret : MRet result := fun A a => Ok a.

#[global] Instance result_bind : MBind result := fun A B k r =>
  match r with
  | Ok a => k a
  | Raise e => Raise e
  end.

(** [d[k]] on a dict with integer keys. *)
Definition subscript {V : Type} (d : gmap Z V) (k : Z) : result V :=
  match d !! k with
  | Some v => Ok v
  | None => Raise (KeyError k)
  end.

(** ** Floating point: [yy * 1.25] and [int(...)] *)

(** Conversion of an [int] operand to [float] for a mixed product.  It is
    exact for [0 <= n < 2^53]; the only operand of the module is
    [yy = year % 100], which lies in [0..99]. *)
Definition float_of_int (n : Z) : float :=
  PrimFloat.of_uint63 (Uint63.of_Z n).

(** [int(f)]: truncation toward zero; Python raises on infinities and NaN. *)
Definition int_of_float (f : float) : result Z :=
  match Prim2SF f with
  | S754_zero _ => Ok 0
  | S754_finite s m e =>
      let a := if 0 <=? e then Z.pos m * 2 ^ e else Z.pos m / 2 ^ (- e) in
      Ok (if s then - a else a)
  | S754_infinity _ =>
      Raise (OverflowError "cannot convert float infinity to integer")
  | S754_nan => Raise (ValueError "cannot convert float NaN to integer")
  end.

(** ** [is_leap_year] *)

Definition is_leap_year (year : Z) : bool :=
  ((year mod 4 =? 0) && negb (year mod 100 =? 0)) || (year mod 400 =? 0).

(** ** [day_of_week] *)

Definition month_code : gmap Z Z :=
  list_to_map
    [ (1, 1); (2, 4); (3, 4); (4, 0); (5, 2); (6, 5);
      (7, 0); (8, 3); (9, 6); (10, 1); (11, 4); (12, 6) ].

Definition weekday : gmap Z string :=
  list_to_map
    [ (1, "Sunday"); (2, "Monday"); (3, "Tuesday"); (4, "Wednesday");
      (5, "Thursday"); (6, "Friday"); (0, "Saturday") ]%string.

(** The value of the variable [base] just before the final lookup, from its
    first assignment [q + day + code] (with [q = int(yy * 1.25)] and
    [code = month_code[month]]) through the three conditional updates. *)
Definition dow_base (q code day month year : Z) : Z :=
  let base := q + day + code in
  let base :=
    if is_leap_year year && ((month =? 1) || (month =? 2))
    then base - 1 else base in
  let base :=
    if year <? 1800 then base + 4
    else if year <? 1900 then base + 2
    else base in
  if (2000 <? year) && (year <=? 2100) then base - 1 else base.

Definition day_of_week (day month year : Z) : result string :=
  if year <? 1753 then
    Raise (ValueError "This algorithm is intended for years >= 1753.")
  else if (month <? 1) || (month >? 12) then
    Raise (ValueError "Month must be in 1..12.")
  else
    let yy := year mod 100 in
    q ← int_of_float (float_of_int yy * 1.25);
    code ← subscript month_code month;
    subscript weekday (dow_base q code day month year mod 7).

(** ** [week_number] *)

(** [range(start, stop)]: empty when [stop <= start]. *)
Definition range (start stop : Z) : list Z := seqZ start (stop - start).

(** [sum(f(m) for m in ms)] with the running total [acc]: the generator is
    consumed left to right and the first exception escapes. *)
Fixpoint sum_gen (f : Z -> result Z) (ms : list Z) (acc : Z) : result Z :=
  match ms with
  | [] => Ok acc
  | m :: ms' => v ← f m; sum_gen f ms' (acc + v)
  end.

Definition month_len0 : gmap Z Z :=
  list_to_map
    [ (1, 31); (2, 28); (3, 31); (4, 30); (5, 31); (6, 30);
      (7, 31); (8, 31); (9, 30); (10, 31); (11, 30); (12, 31) ].

(** The local dict [month_len] after the conditional store
    [month_len[2] = 29]. *)
Definition month_len (year : Z) : gmap Z Z :=
  if is_leap_year year then <[2 := 29]> month_len0 else month_len0.

Definition week_number (day month year : Z) : result Z :=
  s ← sum_gen (subscript (month_len year)) (range 1 month) 0;
  let day_of_year := day + s in
  Ok (day_of_year / 7).

(** ** [date_summary] *)

(** The values stored in the returned dict. *)
Inductive value : Type :=
  | VBool (b : bool)
  | VStr (s : string)
  | VInt (n : Z).

(** The dict display evaluates its three values in order, so an exception
    of [day_of_week] escapes before [week_number] is called and no dict is
    built. *)
Definition date_summary (day month year : Z) : result (gmap string value) :=
  let leapyear := is_leap_year year in
  wd ← day_of_week day month year;
  wk ← week_number day month year;
  Ok (<["week" := VInt wk]>
        (<["weekday" := VStr wd]> (<["leapyear" := VBool leapyear]> ∅))).

(** ** The specification's algorithms, written from its words

    These are the right-hand sides the source functions are compared with. *)
Module Spec.

(** Month codes, Jan=1 ... Dec=6. *)
Definition month_code (month : Z) : Z :=
  match month with
  | 1 => 1 | 2 => 4 | 3 => 4 | 4 => 0 | 5 => 2 | 6 => 5
  | 7 => 0 | 8 => 3 | 9 => 6 | 10 => 1 | 11 => 4 | 12 => 6
  | _ => 0
  end.

(** [floor(yy * 1.25)] over the rationals. *)
Definition floor_times_1_25 (yy : Z) : Z :=
  Qfloor (Qmult (inject_Z yy) (Qmake 125 100)).

Definition leap_correction (year month : Z) : Z :=
  if is_leap_year year && ((month =? 1) || (month =? 2)) then -1 else 0.

Definition century_adjustment (year : Z) : Z :=
  if year <? 1800 then 4
  else if (1800 <=? year) && (year <? 1900) then 2
  else if (2000 <? year) && (year <=? 2100) then -1
  else 0.

Definition weekday_name (r : Z) : string :=
  match r with
  | 1 => "Sunday" | 2 => "Monday" | 3 => "Tuesday" | 4 => "Wednesday"
  | 5 => "Thursday" | 6 => "Friday" | 0 => "Saturday"
  | _ => ""
  end.

Definition base (day month year : Z) : Z :=
  floor_times_1_25 (year mod 100) + day + month_code month
  + leap_correction year month + century_adjustment year.

Definition day_of_week (day month year : Z) : string :=
  weekday_name (base day month year mod 7).

(** The month-length table, February depending on the leap flag. *)
Definition month_length (leap : bool) (month : Z) : Z :=
  match month with
  | 1 => 31 | 2 => if leap then 29 else 28 | 3 => 31 | 4 => 30
  | 5 => 31 | 6 => 30 | 7 => 31 | 8 => 31
  | 9 => 30 | 10 => 31 | 11 => 30 | 12 => 31
  | _ => 0
  end.

(** [day + sum(month_len[1..month-1])]. *)
Definition day_of_year (day month year : Z) : Z :=
  day + foldr Z.add 0 (month_length (is_leap_year year) <$> seqZ 1 (month - 1)).

(** The quotient by 7 rounded toward negative infinity. *)
Definition week_number_floor (day month year : Z) : Z :=
  day_of_year day month year / 7.

(** The quotient by 7 rounded toward zero (truncating division). *)
Definition week_number_trunc (day month year : Z) : Z :=
  Z.quot (day_of_year day month year) 7.

(** The condition under which [InvalidInput] is specified. *)
Definition invalid_input (month year : Z) : Prop :=
  year < 1753 \/ month < 1 \/ 12 < month.

End Spec.

(** The seven weekday names. *)
Definition weekday_names : list string :=
  [ "Sunday"; "Monday"; "Tuesday"; "Wednesday"; "Thursday"; "Friday";
    "Saturday" ]%string.

(** Whether [int(yy * 1.25)] returns the floor of the rational product. *)
Definition float_step_agrees (yy : Z) : bool :=
  match int_of_float (float_of_int yy * 1.25) with
  | Ok q => q =? Spec.floor_times_1_25 yy
  | Raise _ => false
  end.

(** ** Quantities the further properties are stated with *)

(** The number of leap years among the [n] years from [y] on. *)
Definition leap_years_in (y n : Z) : nat :=
  length (List.filter is_leap_year (seqZ y n)).

(** Whether the residue [base mod 7] of 1 January of year [y + 1] is the
    one of the day after 31 December of year [y]. *)
Definition new_year_continuous (y : Z) : bool :=
  (Spec.base 1 1 (y + 1) - Spec.base 32 12 y) mod 7 =? 0.

(** The years of 1753..2198 after which [new_year_continuous] fails. *)
Definition new_year_break (y : Z) : bool :=
  (y =? 1999) || (y =? 2000) || (y =? 2099) || (y =? 2100).

(** The dict [date_summary] builds from its three values. *)
Definition summary_dict (leapyear : bool) (wd : string) (wk : Z)
  : gmap string value :=
  <["week" := VInt wk]>
    (<["weekday" := VStr wd]> (<["leapyear" := VBool leapyear]> ∅)).

(** * Properties *)

(** ** Auxiliary facts *)

(** Splitting an integer interval into its points. *)
Ltac split_range x :=
  repeat match goal with
  | H : ?a <= x <= ?b |- _ =>
      first
        [ assert (x = a) by lia; subst x; clear H
        | let E := fresh "E" in
          destruct (Z.eq_dec x a) as [E | E];
          [ subst x; clear H
          | assert (a + 1 <= x <= b) by lia; clear H E;
            match goal with H' : a + 1 <= x <= b |- _ =>
              ring_simplify (a + 1) in H' end ] ]
  end.

Lemma float_step_table : forallb float_step_agrees (seqZ 0 100) = true.
Proof. vm_compute. reflexivity. Qed.

(** On the two-digit years the binary64 product [yy * 1.25] is exact and
    [int()] of it is the floor of the rational product. *)
Lemma int_of_float_times_1_25 (yy : Z) :
  0 <= yy < 100 ->
  int_of_float (float_of_int yy * 1.25) = Ok (Spec.floor_times_1_25 yy).
Proof.
  intros Hyy.
  assert (Hin : yy ∈ seqZ 0 100) by (apply elem_of_seqZ; lia).
  pose proof float_step_table as Htab.
  rewrite forallb_forall in Htab.
  specialize (Htab yy (proj1 (list_elem_of_In _ _) Hin)).
  unfold float_step_agrees in Htab.
  destruct (int_of_float (float_of_int yy * 1.25)) as [q | e]; [| discriminate].
  apply Z.eqb_eq in Htab. now subst q.
Qed.

Lemma month_code_lookup (month : Z) :
  1 <= month <= 12 ->
  subscript month_code month = Ok (Spec.month_code month).
Proof. intros H. split_range month; reflexivity. Qed.

Lemma weekday_lookup (r : Z) :
  0 <= r <= 6 -> subscript weekday r = Ok (Spec.weekday_name r).
Proof. intros H. split_range r; reflexivity. Qed.

Lemma weekday_name_in (r : Z) :
  0 <= r <= 6 -> Spec.weekday_name r ∈ weekday_names.
Proof.
  intros H. unfold weekday_names. split_range r; cbn; set_solver.
Qed.

(** The variable [base] of the source and the specification's sum agree. *)
Lemma dow_base_spec (day month year : Z) :
  dow_base (Spec.floor_times_1_25 (year mod 100)) (Spec.month_code month)
    day month year
  = Spec.base day month year.
Proof.
  unfold dow_base, Spec.base, Spec.leap_correction, Spec.century_adjustment.
  destruct (is_leap_year year && ((month =? 1) || (month =? 2)));
    destruct (Z.ltb_spec year 1800), (Z.ltb_spec year 1900),
      (Z.leb_spec 1800 year), (Z.ltb_spec 2000 year),
      (Z.leb_spec year 2100); cbn [andb]; lia.
Qed.

Lemma mod7_range (b : Z) : 0 <= b mod 7 <= 6.
Proof. pose proof (Z.mod_pos_bound b 7); lia. Qed.

Lemma day_of_week_valid (day month year : Z) :
  1753 <= year -> 1 <= month <= 12 ->
  day_of_week day month year = Ok (Spec.day_of_week day month year).
Proof.
  intros Hy Hm. unfold day_of_week.
  destruct (Z.ltb_spec year 1753); [lia |].
  destruct (Z.ltb_spec month 1); [lia |].
  rewrite Z.gtb_ltb. destruct (Z.ltb_spec 12 month); [lia |].
  cbn [orb].
  rewrite int_of_float_times_1_25 by (apply Z.mod_pos_bound; lia).
  rewrite month_code_lookup by lia.
  cbn [mbind result_bind].
  rewrite dow_base_spec.
  apply weekday_lookup, mod7_range.
Qed.

Lemma day_of_week_year_guard (day month year : Z) :
  year < 1753 ->
  day_of_week day month year
  = Raise (ValueError "This algorithm is intended for years >= 1753.").
Proof.
  intros Hy. unfold day_of_week.
  destruct (Z.ltb_spec year 1753); [reflexivity | lia].
Qed.

Lemma day_of_week_month_guard (day month year : Z) :
  1753 <= year -> month < 1 \/ 12 < month ->
  day_of_week day month year = Raise (ValueError "Month must be in 1..12.").
Proof.
  intros Hy Hm. unfold day_of_week.
  destruct (Z.ltb_spec year 1753); [lia |].
  rewrite Z.gtb_ltb.
  destruct (Z.ltb_spec month 1), (Z.ltb_spec 12 month);
    first [reflexivity | lia].
Qed.

(** [day_of_week] raises exactly on the inputs its guards reject, and then
    a [ValueError]. *)
Lemma day_of_week_raises (day month year : Z) (e : exn) :
  day_of_week day month year = Raise e ->
  Spec.invalid_input month year /\ exists msg, e = ValueError msg.
Proof.
  intros He. unfold Spec.invalid_input.
  destruct (Z_lt_le_dec year 1753) as [Hy | Hy].
  - rewrite day_of_week_year_guard in He by lia.
    injection He as <-. split; [lia | eauto].
  - destruct (Z_lt_le_dec month 1) as [Hm1 | Hm1].
    + rewrite day_of_week_month_guard in He by lia.
      injection He as <-. split; [lia | eauto].
    + destruct (Z_lt_le_dec 12 month) as [Hm2 | Hm2].
      * rewrite day_of_week_month_guard in He by lia.
        injection He as <-. split; [lia | eauto].
      * rewrite day_of_week_valid in He by lia. discriminate.
Qed.

Lemma day_of_week_invalid (day month year : Z) :
  Spec.invalid_input month year ->
  exists msg, day_of_week day month year = Raise (ValueError msg).
Proof.
  unfold Spec.invalid_input. intros H.
  destruct (Z_lt_le_dec year 1753) as [Hy | Hy].
  - rewrite day_of_week_year_guard by lia. eauto.
  - rewrite day_of_week_month_guard by lia. eauto.
Qed.

(** *** The generator sum of [week_number] *)

Lemma sum_gen_app (f : Z -> result Z) (l1 l2 : list Z) (acc : Z) :
  sum_gen f (l1 ++ l2) acc = sum_gen f l1 acc ≫= sum_gen f l2.
Proof.
  revert acc. induction l1 as [| m l1 IH]; intros acc; cbn; [reflexivity |].
  destruct (f m) as [v | e]; cbn; [apply IH | reflexivity].
Qed.

Lemma sum_gen_ok (f : Z -> result Z) (g : Z -> Z) (ms : list Z) (acc : Z) :
  (forall m, m ∈ ms -> f m = Ok (g m)) ->
  sum_gen f ms acc = Ok (acc + foldr Z.add 0 (g <$> ms)).
Proof.
  revert acc. induction ms as [| m ms IH]; intros acc Hf; cbn.
  - f_equal. lia.
  - rewrite (Hf m) by set_solver. cbn.
    rewrite IH by (intros m' Hm'; apply Hf; set_solver).
    f_equal. lia.
Qed.

Lemma month_len_lookup (year m : Z) :
  1 <= m <= 12 ->
  subscript (month_len year) m = Ok (Spec.month_length (is_leap_year year) m).
Proof.
  intros H. unfold month_len.
  destruct (is_leap_year year); split_range m; reflexivity.
Qed.

Lemma month_len_13 (year : Z) :
  subscript (month_len year) 13 = Raise (KeyError 13).
Proof. unfold month_len. destruct (is_leap_year year); reflexivity. Qed.

(** Up to [month = 13] every key asked for is in the table. *)
Lemma week_number_le_13 (day month year : Z) :
  month <= 13 ->
  week_number day month year = Ok (Spec.week_number_floor day month year).
Proof.
  intros Hm. unfold week_number, range.
  rewrite (sum_gen_ok _ (Spec.month_length (is_leap_year year))).
  - cbn. unfold Spec.week_number_floor, Spec.day_of_year.
    now rewrite Z.add_0_l.
  - intros m Hin. apply elem_of_seqZ in Hin.
    apply month_len_lookup. lia.
Qed.

(** From [month = 14] on the generator asks for key 13. *)
Lemma week_number_ge_14 (day month year : Z) :
  14 <= month -> week_number day month year = Raise (KeyError 13).
Proof.
  intros Hm. unfold week_number, range.
  replace (month - 1) with (12 + (month - 13)) by lia.
  rewrite seqZ_app by lia.
  rewrite (seqZ_cons (1 + 12)) by lia.
  rewrite sum_gen_app.
  rewrite (sum_gen_ok _ (Spec.month_length (is_leap_year year))).
  - cbn. now rewrite month_len_13.
  - intros m Hin. apply elem_of_seqZ in Hin.
    apply month_len_lookup. lia.
Qed.

(** ** [is_leap_year] *)

(** C2: for every integer year, [is_leap_year] is true exactly when the year
    is divisible by 4 and not by 100, or divisible by 400; it is true for
    2000, 1996 and 2024 and false for 1900, 2023 and 2100.  The function is
    a total map into [bool] on all of [Z], so no year makes it fail. *)
Theorem is_leap_year_gregorian (year : Z) :
  (is_leap_year year = true
   <-> ((4 | year) /\ ~ (100 | year)) \/ (400 | year))
  /\ (exists b : bool, is_leap_year year = b)
  /\ is_leap_year 2000 = true /\ is_leap_year 1996 = true
  /\ is_leap_year 2024 = true /\ is_leap_year 1900 = false
  /\ is_leap_year 2023 = false /\ is_leap_year 2100 = false.
Proof.
  split; [| split; [eauto | repeat split; reflexivity]].
  unfold is_leap_year.
  rewrite orb_true_iff, andb_true_iff, negb_true_iff, Z.eqb_neq, !Z.eqb_eq.
  rewrite !Z.mod_divide by lia. reflexivity.
Qed.

(** ** [day_of_week] *)

(** C1: for every day, every month in 1..12 and every year >= 1753,
    [day_of_week] returns the weekday name of the specification's algorithm:
    floor of (year mod 100) * 1.25, plus the day, plus the month code, minus
    1 for January and February of a leap year, plus the century adjustment
    (+4 before 1800, +2 in 1800..1899, -1 in 2001..2100, else 0), reduced
    modulo 7 into 0..6 and mapped 1 -> Sunday, ..., 6 -> Friday,
    0 -> Saturday. *)
Theorem day_of_week_matches_algorithm (day month year : Z) :
  1 <= month <= 12 -> 1753 <= year ->
  day_of_week day month year = Ok (Spec.day_of_week day month year).
Proof. intros Hm Hy. now apply day_of_week_valid. Qed.

Lemma day_of_week_matches_algorithm_witness :
  1 <= 11 <= 12 /\ 1753 <= 2026
  /\ day_of_week 3 11 2026 = Ok (Spec.day_of_week 3 11 2026).
Proof.
  split; [lia | split; [lia |]].
  apply (day_of_week_matches_algorithm 3 11 2026); lia.
Defined.

(** C3: [day_of_week] raises [ValueError] (the specification's
    [InvalidInput]) exactly when year < 1753 or the month is outside 1..12,
    whatever the day; so it does for year 1752, month 13 and month 0; and
    it raises nothing else, so on year >= 1753 and month in 1..12 it
    returns. *)
Theorem day_of_week_invalid_input (day month year : Z) :
  ((exists msg, day_of_week day month year = Raise (ValueError msg))
   <-> Spec.invalid_input month year)
  /\ ((exists e, day_of_week day month year = Raise e)
      <-> Spec.invalid_input month year)
  /\ (exists msg, day_of_week day month 1752 = Raise (ValueError msg))
  /\ (exists msg, day_of_week day 13 year = Raise (ValueError msg))
  /\ (exists msg, day_of_week day 0 year = Raise (ValueError msg))
  /\ (1753 <= year /\ 1 <= month <= 12 ->
      exists name, day_of_week day month year = Ok name).
Proof.
  repeat split.
  - intros [msg H]. now apply day_of_week_raises in H.
  - apply day_of_week_invalid.
  - intros [e H]. now apply day_of_week_raises in H.
  - intros H. destruct (day_of_week_invalid day month year H) as [msg Hm].
    eauto.
  - apply day_of_week_invalid. unfold Spec.invalid_input. lia.
  - apply day_of_week_invalid. unfold Spec.invalid_input. lia.
  - apply day_of_week_invalid. unfold Spec.invalid_input. lia.
  - intros [Hy Hm]. rewrite day_of_week_valid by lia. eauto.
Qed.

(** C4: the call [day_of_week(1, 1, 2000)].  Here [yy = 0], so [base] starts
    at [0 + 1 + 1 = 2]; the leap-year correction makes it 1; neither century
    branch applies and [2000 < year] is false, so the lookup is
    [weekday[1]]: the function returns Sunday, not Saturday. *)
Theorem day_of_week_2000_01_01 :
  day_of_week 1 1 2000 = Ok "Sunday"%string
  /\ day_of_week 1 1 2000 <> Ok "Saturday"%string.
Proof. split; [vm_compute; reflexivity | vm_compute; discriminate]. Qed.

(** C9: for every integer day, every month in 1..12 and every year >= 1753
    the lookups of [day_of_week] are defined: [base mod 7] lies in 0..6
    also for a negative [base], the table [weekday] has all seven keys, the
    result is one of the seven weekday names, and no [KeyError] is raised. *)
Theorem day_of_week_lookups_defined (day month year : Z) :
  1 <= month <= 12 -> 1753 <= year ->
  (forall r, 0 <= r <= 6 -> is_Some (weekday !! r))
  /\ (exists q code,
        int_of_float (float_of_int (year mod 100) * 1.25) = Ok q
        /\ subscript month_code month = Ok code
        /\ 0 <= dow_base q code day month year mod 7 <= 6
        /\ is_Some (weekday !! (dow_base q code day month year mod 7)))
  /\ (exists name,
        day_of_week day month year = Ok name /\ name ∈ weekday_names)
  /\ (forall k, day_of_week day month year <> Raise (KeyError k)).
Proof.
  intros Hm Hy.
  assert (Hall : forall r, 0 <= r <= 6 -> is_Some (weekday !! r)).
  { intros r Hr. pose proof (weekday_lookup r Hr) as H.
    unfold subscript in H. destruct (weekday !! r); [eauto | discriminate]. }
  split; [exact Hall | split; [| split]].
  - exists (Spec.floor_times_1_25 (year mod 100)), (Spec.month_code month).
    split; [apply int_of_float_times_1_25, Z.mod_pos_bound; lia |].
    split; [now apply month_code_lookup |].
    split; [apply mod7_range | apply Hall, mod7_range].
  - exists (Spec.day_of_week day month year).
    split; [now apply day_of_week_valid |].
    apply weekday_name_in, mod7_range.
  - intros k. rewrite day_of_week_valid by lia. discriminate.
Qed.

Lemma day_of_week_lookups_defined_witness :
  1 <= 12 <= 12 /\ 1753 <= 1753
  /\ exists name,
       day_of_week (-50) 12 1753 = Ok name /\ name ∈ weekday_names.
Proof.
  split; [lia | split; [lia |]].
  apply (day_of_week_lookups_defined (-50) 12 1753); lia.
Defined.

(** ** [week_number] *)

(** C5, as stated, fails on a negative day of the year: for day -1 in
    January the day of the year is -1, [-1 // 7] is -1, and the truncating
    quotient is 0. *)
Lemma week_number_not_truncating :
  week_number (-1) 1 2021 = Ok (-1)
  /\ Spec.week_number_trunc (-1) 1 2021 = 0
  /\ week_number (-1) 1 2021 <> Ok (Spec.week_number_trunc (-1) 1 2021).
Proof. repeat split; vm_compute; congruence. Qed.

(** C5, amended: for every day, every month in 1..12 and every year,
    [week_number] returns the quotient of the day of the year by 7 rounded
    toward negative infinity, the day of the year being the day plus the
    lengths of the preceding months (February 29 in a leap year); this is
    the truncating quotient whenever the day of the year is not negative;
    [week_number(1, 1, 2021)] is 0 and [week_number(10, 1, 2021)] is 1; no
    exception is raised. *)
Theorem week_number_floor_division (day month year : Z) :
  1 <= month <= 12 ->
  week_number day month year = Ok (Spec.week_number_floor day month year)
  /\ (0 <= Spec.day_of_year day month year ->
      week_number day month year
      = Ok (Spec.week_number_trunc day month year))
  /\ week_number 1 1 2021 = Ok 0 /\ week_number 10 1 2021 = Ok 1.
Proof.
  intros Hm.
  assert (H : week_number day month year
              = Ok (Spec.week_number_floor day month year))
    by (apply week_number_le_13; lia).
  split; [exact H | split; [| split; reflexivity]].
  intros Hpos. rewrite H.
  unfold Spec.week_number_floor, Spec.week_number_trunc.
  now rewrite Z.quot_div_nonneg by lia.
Qed.

Lemma week_number_floor_division_witness :
  1 <= 2 <= 12
  /\ week_number 29 2 2024 = Ok (Spec.week_number_floor 29 2 2024).
Proof.
  split; [lia |].
  apply (proj1 (week_number_floor_division 29 2 2024 ltac:(lia))).
Defined.

(** C10, as stated, fails at month 13: [range(1, 13)] asks only for the
    keys 1..12, so the call returns [(1 + 365) // 7 = 52] and raises
    nothing. *)
Lemma week_number_month_13_returns :
  week_number 1 13 2021 = Ok 52
  /\ ~ (exists e, week_number 1 13 2021 = Raise e).
Proof.
  split; [reflexivity |].
  intros [e H]. vm_compute in H. discriminate.
Qed.

(** C10, amended: for every month <= 0 and every day and year,
    [week_number] raises nothing and returns [day // 7], the sum over the
    preceding months being empty; it raises (a [KeyError] for key 13)
    exactly when month >= 14; at month 13 it returns the quotient of the
    day plus the whole year's length. *)
Theorem week_number_outside_months (day month year : Z) :
  (month <= 0 -> week_number day month year = Ok (day / 7))
  /\ ((exists e, week_number day month year = Raise e) <-> 14 <= month)
  /\ (14 <= month -> week_number day month year = Raise (KeyError 13))
  /\ (month = 13 ->
      week_number day month year
      = Ok ((day + (if is_leap_year year then 366 else 365)) / 7)).
Proof.
  split; [| split; [| split]].
  - intros Hm. rewrite week_number_le_13 by lia.
    unfold Spec.week_number_floor, Spec.day_of_year.
    rewrite seqZ_nil by lia. cbn. now rewrite Z.add_0_r.
  - split.
    + intros [e H]. destruct (Z_lt_le_dec month 14) as [Hlt | Hge]; [| lia].
      rewrite week_number_le_13 in H by lia. discriminate.
    + intros Hm. rewrite week_number_ge_14 by lia. eauto.
  - apply week_number_ge_14.
  - intros ->. rewrite week_number_le_13 by lia.
    unfold Spec.week_number_floor, Spec.day_of_year.
    destruct (is_leap_year year); reflexivity.
Qed.

(** ** [date_summary] *)

(** C6: for every day, month in 1..12 and year >= 1753, [date_summary]
    returns a dict whose entries are the result of [is_leap_year] under
    [leapyear], the result of [day_of_week] under [weekday] and the result
    of [week_number] under [week], and no other entry. *)
Theorem date_summary_fields (day month year : Z) :
  1 <= month <= 12 -> 1753 <= year ->
  exists (s : gmap string value) (wd : string) (wk : Z),
    date_summary day month year = Ok s
    /\ day_of_week day month year = Ok wd
    /\ week_number day month year = Ok wk
    /\ s !! "leapyear"%string = Some (VBool (is_leap_year year))
    /\ s !! "weekday"%string = Some (VStr wd)
    /\ s !! "week"%string = Some (VInt wk)
    /\ dom s = {[ "leapyear"%string; "weekday"%string; "week"%string ]}.
Proof.
  intros Hm Hy. unfold date_summary.
  rewrite day_of_week_valid, week_number_le_13 by lia.
  cbn [mbind result_bind].
  eexists _, _, _. split; [reflexivity |].
  split; [reflexivity |]. split; [reflexivity |].
  split; [now simplify_map_eq |].
  split; [now simplify_map_eq |].
  split; [now simplify_map_eq |].
  rewrite !dom_insert_L, dom_empty_L. set_solver.
Qed.

Lemma date_summary_fields_witness :
  1 <= 1 <= 12 /\ 1753 <= 2000
  /\ exists (s : gmap string value) (wd : string) (wk : Z),
       date_summary 1 1 2000 = Ok s
       /\ day_of_week 1 1 2000 = Ok wd
       /\ week_number 1 1 2000 = Ok wk
       /\ s !! "leapyear"%string = Some (VBool (is_leap_year 2000))
       /\ s !! "weekday"%string = Some (VStr wd)
       /\ s !! "week"%string = Some (VInt wk)
       /\ dom s = {[ "leapyear"%string; "weekday"%string; "week"%string ]}.
Proof.
  split; [lia | split; [lia |]].
  apply (date_summary_fields 1 1 2000); lia.
Defined.

(** C7: [date_summary] raises exactly the exception [day_of_week] raises
    on the same arguments, a [ValueError], and it does so exactly when
    year < 1753 or the month is outside 1..12; whenever [day_of_week]
    returns, [week_number] returns too; a call that raises yields no dict. *)
Theorem date_summary_errors (day month year : Z) :
  (forall e, date_summary day month year = Raise e
             <-> day_of_week day month year = Raise e)
  /\ ((exists msg, date_summary day month year = Raise (ValueError msg))
      <-> Spec.invalid_input month year)
  /\ ((exists e, date_summary day month year = Raise e)
      <-> Spec.invalid_input month year)
  /\ (forall wd, day_of_week day month year = Ok wd ->
                 exists wk, week_number day month year = Ok wk)
  /\ (forall e, date_summary day month year = Raise e ->
                forall s, date_summary day month year <> Ok s).
Proof.
  assert (Hwk : forall wd, day_of_week day month year = Ok wd ->
                           exists wk, week_number day month year = Ok wk).
  { intros wd Hwd.
    destruct (Z_lt_le_dec month 14) as [Hlt | Hge].
    - rewrite week_number_le_13 by lia. eauto.
    - rewrite day_of_week_month_guard in Hwd; [discriminate | | lia].
      destruct (Z_lt_le_dec year 1753) as [Hy | Hy]; [| lia].
      rewrite day_of_week_year_guard in Hwd by lia. discriminate. }
  assert (Hsame : forall e, date_summary day month year = Raise e
                            <-> day_of_week day month year = Raise e).
  { intros e. unfold date_summary.
    destruct (day_of_week day month year) as [wd | e'] eqn:Hwd;
      cbn [mbind result_bind]; [| split; congruence].
    destruct (Hwk wd eq_refl) as [wk ->]. cbn. split; discriminate. }
  split; [exact Hsame | split; [| split; [| split; [exact Hwk |]]]].
  - split.
    + intros [msg H]. apply Hsame in H. now apply day_of_week_raises in H.
    + intros H. destruct (day_of_week_invalid day month year H) as [msg Hm].
      exists msg. now apply Hsame.
  - split.
    + intros [e H]. apply Hsame in H. now apply day_of_week_raises in H.
    + intros H. destruct (day_of_week_invalid day month year H) as [msg Hm].
      exists (ValueError msg). now apply Hsame.
  - intros e H s. rewrite H. discriminate.
Qed.

(** ** Determinism *)

(** C8: each of the four functions gives, on identical arguments, identical
    outcomes, a raised exception included. *)
Theorem calendar_deterministic (day day' month month' year year' : Z) :
  day = day' -> month = month' -> year = year' ->
  is_leap_year year = is_leap_year year'
  /\ day_of_week day month year = day_of_week day' month' year'
  /\ week_number day month year = week_number day' month' year'
  /\ date_summary day month year = date_summary day' month' year'.
Proof. intros -> -> ->. repeat split. Qed.

Lemma calendar_deterministic_witness :
  is_leap_year 1752 = is_leap_year 1752
  /\ day_of_week 1 13 1752 = day_of_week 1 13 1752
  /\ week_number 1 13 1752 = week_number 1 13 1752
  /\ date_summary 1 13 1752 = date_summary 1 13 1752.
Proof.
  apply (calendar_deterministic 1 1 13 13 1752 1752); reflexivity.
Defined.

(** * Further properties of the four functions *)

(** ** Auxiliary facts *)

Lemma weekday_name_inj (r r' : Z) :
  0 <= r <= 6 -> 0 <= r' <= 6 ->
  Spec.weekday_name r = Spec.weekday_name r' -> r = r'.
Proof.
  intros Hr Hr' H. split_range r; split_range r';
    first [reflexivity | discriminate H].
Qed.

Lemma base_linear (day month year : Z) :
  Spec.base day month year = day + Spec.base 0 month year.
Proof. unfold Spec.base. lia. Qed.

Lemma mod7_eq_iff (a b : Z) : a mod 7 = b mod 7 <-> (a - b) mod 7 = 0.
Proof. split; intros H; Z.div_mod_to_equations; lia. Qed.

Lemma floor_times_1_25_quarter (yy : Z) :
  Spec.floor_times_1_25 yy = yy + yy / 4.
Proof.
  unfold Spec.floor_times_1_25. cbn.
  change (Z.pos (1 * 100)) with 100. Z.div_mod_to_equations. lia.
Qed.

(** Two valid calls name the same weekday exactly when their [base]
    residues agree. *)
Lemma day_of_week_eq_iff (d m y d' m' y' : Z) :
  1753 <= y -> 1 <= m <= 12 -> 1753 <= y' -> 1 <= m' <= 12 ->
  day_of_week d m y = day_of_week d' m' y'
  <-> (Spec.base d m y - Spec.base d' m' y') mod 7 = 0.
Proof.
  intros Hy Hm Hy' Hm'. rewrite !day_of_week_valid by lia.
  unfold Spec.day_of_week. rewrite <- mod7_eq_iff. split.
  - intros H. injection H as H.
    apply weekday_name_inj in H; [exact H | apply mod7_range ..].
  - intros ->. reflexivity.
Qed.

(** ** [day_of_week] *)

(** X1: on the two-digit years 0..99 the floating-point step
    [int(yy * 1.25)] is exact: it returns [yy + yy // 4] and raises
    nothing. *)
Theorem int_times_1_25_exact (yy : Z) :
  0 <= yy < 100 ->
  int_of_float (float_of_int yy * 1.25) = Ok (yy + yy / 4).
Proof.
  intros H. rewrite int_of_float_times_1_25 by exact H.
  now rewrite floor_times_1_25_quarter.
Qed.

Lemma int_times_1_25_exact_witness :
  0 <= 99 < 100 /\ int_of_float (float_of_int 99 * 1.25) = Ok (99 + 99 / 4).
Proof. split; [lia |]. apply (int_times_1_25_exact 99); lia. Defined.

(** X2: the year guard of [day_of_week] comes first: the call raises the
    year message exactly when year < 1753, whatever the month, and the
    month message exactly when year >= 1753 and the month is outside
    1..12. *)
Theorem day_of_week_guard_order (day month year : Z) :
  (day_of_week day month year
   = Raise (ValueError "This algorithm is intended for years >= 1753.")
   <-> year < 1753)
  /\ (day_of_week day month year
      = Raise (ValueError "Month must be in 1..12.")
      <-> 1753 <= year /\ (month < 1 \/ 12 < month)).
Proof.
  destruct (Z_lt_le_dec year 1753) as [Hy | Hy].
  - rewrite day_of_week_year_guard by lia.
    split; split; first [reflexivity | discriminate | lia].
  - destruct (Z_lt_le_dec month 1) as [Hm1 | Hm1];
      [| destruct (Z_lt_le_dec 12 month) as [Hm2 | Hm2]].
    + rewrite day_of_week_month_guard by lia.
      split; split; first [reflexivity | discriminate | lia].
    + rewrite day_of_week_month_guard by lia.
      split; split; first [reflexivity | discriminate | lia].
    + rewrite day_of_week_valid by lia.
      split; split; first [discriminate | lia].
Qed.

Lemma day_of_week_same_name_iff_aux (day day' month year : Z) :
  1 <= month <= 12 -> 1753 <= year ->
  day_of_week day month year = day_of_week day' month year
  <-> (7 | day - day').
Proof.
  intros Hm Hy. rewrite day_of_week_eq_iff by lia.
  rewrite (base_linear day), (base_linear day').
  rewrite <- Z.mod_divide by lia.
  replace (day + Spec.base 0 month year - (day' + Spec.base 0 month year))
    with (day - day') by lia.
  reflexivity.
Qed.

(** X3: within one month of a year >= 1753, two days get the same weekday
    name exactly when they differ by a multiple of 7. *)
Theorem day_of_week_same_name_iff (day day' month year : Z) :
  1 <= month <= 12 -> 1753 <= year ->
  day_of_week day month year = day_of_week day' month year
  <-> (7 | day - day').
Proof. intros Hm Hy. now apply day_of_week_same_name_iff_aux. Qed.

Lemma day_of_week_same_name_iff_witness :
  1 <= 11 <= 12 /\ 1753 <= 2026
  /\ (day_of_week 3 11 2026 = day_of_week 24 11 2026 <-> (7 | 3 - 24)).
Proof.
  split; [lia | split; [lia |]].
  apply (day_of_week_same_name_iff 3 24 11 2026); lia.
Defined.

(** X4: the next day gets the next entry of the table [weekday], the key
    going 0, 1, ..., 6 and back to 0: Saturday, Sunday, ..., Friday. *)
Theorem day_of_week_next_day (day month year : Z) :
  1 <= month <= 12 -> 1753 <= year ->
  exists r,
    0 <= r <= 6
    /\ day_of_week day month year = subscript weekday r
    /\ day_of_week (day + 1) month year = subscript weekday ((r + 1) mod 7).
Proof.
  intros Hm Hy. exists (Spec.base day month year mod 7).
  split; [apply mod7_range |].
  rewrite !day_of_week_valid by lia.
  rewrite !weekday_lookup by apply mod7_range.
  split; [reflexivity |].
  unfold Spec.day_of_week. rewrite Z.add_mod_idemp_l by lia.
  rewrite (base_linear (day + 1)), (base_linear day).
  do 3 f_equal. lia.
Qed.

Lemma day_of_week_next_day_witness :
  1 <= 12 <= 12 /\ 1753 <= 1999
  /\ exists r,
       0 <= r <= 6
       /\ day_of_week 31 12 1999 = subscript weekday r
       /\ day_of_week (31 + 1) 12 1999 = subscript weekday ((r + 1) mod 7).
Proof.
  split; [lia | split; [lia |]].
  apply (day_of_week_next_day 31 12 1999); lia.
Defined.

(** X5: [day_of_week] agrees with the month lengths [week_number] uses:
    for the months January to November of a year >= 1753, day [d] of the
    next month has the weekday of day [d + month_len[month]] of this
    month, February counting 29 days exactly in the leap years. *)
Theorem day_of_week_month_rollover (day month year : Z) :
  1 <= month <= 11 -> 1753 <= year ->
  exists len,
    subscript (month_len year) month = Ok len
    /\ day_of_week day (month + 1) year = day_of_week (day + len) month year.
Proof.
  intros Hm Hy. exists (Spec.month_length (is_leap_year year) month).
  split; [apply month_len_lookup; lia |].
  apply day_of_week_eq_iff; try lia.
  unfold Spec.base, Spec.leap_correction.
  generalize (Spec.floor_times_1_25 (year mod 100)).
  generalize (Spec.century_adjustment year). intros C F.
  destruct (is_leap_year year); split_range month; cbn;
    match goal with |- ?a mod 7 = 0 => ring_simplify a end; reflexivity.
Qed.

Lemma day_of_week_month_rollover_witness :
  1 <= 2 <= 11 /\ 1753 <= 2024
  /\ exists len,
       subscript (month_len 2024) 2 = Ok len
       /\ day_of_week 1 (2 + 1) 2024 = day_of_week (1 + len) 2 2024.
Proof.
  split; [lia | split; [lia |]].
  apply (day_of_week_month_rollover 1 2 2024); lia.
Defined.

Lemma new_year_table :
  forallb (fun y => Bool.eqb (new_year_continuous y) (negb (new_year_break y)))
    (seqZ 1753 446) = true.
Proof. vm_compute. reflexivity. Qed.

(** X6: across New Year the weekdays run on, day [d] of January of year
    [y + 1] having the weekday of day [d + 31] of December of year [y], for
    every year [y] of 1753..2198 except 1999, 2000, 2099 and 2100, and for
    none of these four. *)
Theorem day_of_week_new_year (day y : Z) :
  1753 <= y <= 2198 ->
  day_of_week day 1 (y + 1) = day_of_week (day + 31) 12 y
  <-> y <> 1999 /\ y <> 2000 /\ y <> 2099 /\ y <> 2100.
Proof.
  intros Hy. rewrite day_of_week_eq_iff by lia.
  pose proof new_year_table as Htab. rewrite forallb_forall in Htab.
  assert (Hin : y ∈ seqZ 1753 446) by (apply elem_of_seqZ; lia).
  specialize (Htab y (proj1 (list_elem_of_In _ _) Hin)).
  apply Bool.eqb_prop in Htab.
  unfold new_year_continuous in Htab.
  rewrite (base_linear 1), (base_linear 32) in Htab.
  rewrite (base_linear day), (base_linear (day + 31)).
  replace (day + Spec.base 0 1 (y + 1) - (day + 31 + Spec.base 0 12 y))
    with (1 + Spec.base 0 1 (y + 1) - (32 + Spec.base 0 12 y)) by lia.
  rewrite <- Z.eqb_eq, Htab. unfold new_year_break.
  rewrite negb_true_iff, !orb_false_iff, !Z.eqb_neq. tauto.
Qed.

Lemma day_of_week_new_year_witness :
  1753 <= 2025 <= 2198
  /\ (day_of_week 1 1 (2025 + 1) = day_of_week (1 + 31) 12 2025
      <-> 2025 <> 1999 /\ 2025 <> 2000 /\ 2025 <> 2099 /\ 2025 <> 2100).
Proof.
  split; [lia |].
  apply (day_of_week_new_year 1 2025); lia.
Defined.

(** ** [week_number] *)

(** Evaluating the closed sums of month lengths in the goal. *)
Ltac eval_days :=
  repeat match goal with
  | |- context [foldr Z.add 0 ?l] =>
      let v := eval vm_compute in (foldr Z.add 0 l) in
      progress change (foldr Z.add 0 l) with v
  end.

Lemma month_length_nonneg (leap : bool) (l : list Z) :
  (forall m, m ∈ l -> 1 <= m <= 12) ->
  0 <= foldr Z.add 0 (Spec.month_length leap <$> l).
Proof.
  induction l as [| m l IH]; intros Hl; cbn; [lia |].
  assert (Hm : 1 <= m <= 12) by (apply Hl, list_elem_of_here).
  assert (0 <= Spec.month_length leap m)
    by (destruct leap; split_range m; cbn; lia).
  assert (0 <= foldr Z.add 0 (Spec.month_length leap <$> l))
    by (apply IH; intros m' Hm'; apply Hl, list_elem_of_further, Hm').
  lia.
Qed.

Lemma day_of_year_month_step (day m m' year : Z) :
  1 <= m <= m' -> m' <= 13 ->
  Spec.day_of_year day m year <= Spec.day_of_year day m' year.
Proof.
  intros Hm Hm'. unfold Spec.day_of_year.
  replace (m' - 1) with ((m - 1) + (m' - m)) by lia.
  rewrite seqZ_app, fmap_app, foldr_app by lia.
  set (tl := foldr Z.add 0 (Spec.month_length _ <$> seqZ (1 + (m - 1)) _)).
  assert (Htl : 0 <= tl).
  { apply month_length_nonneg. intros x Hx. apply elem_of_seqZ in Hx. lia. }
  clearbody tl.
  assert (Hshift : forall (l : list Z) (a : Z),
             foldr Z.add a l = a + foldr Z.add 0 l).
  { induction l as [| x l IH]; intros a; cbn; [lia |].
    rewrite (IH a). lia. }
  rewrite (Hshift _ tl). lia.
Qed.

Lemma week_number_floor_plus_7 (day month year : Z) :
  Spec.week_number_floor (day + 7) month year
  = Spec.week_number_floor day month year + 1.
Proof.
  unfold Spec.week_number_floor, Spec.day_of_year.
  Z.div_mod_to_equations. lia.
Qed.

(** X7: a call that returns (month <= 13) returns one more for the day
    seven later, and never less for a later day of the same month. *)
Theorem week_number_later_day (day day' month year : Z) :
  month <= 13 -> day <= day' ->
  exists w w' w7,
    week_number day month year = Ok w
    /\ week_number day' month year = Ok w'
    /\ week_number (day + 7) month year = Ok w7
    /\ w <= w' /\ w7 = w + 1.
Proof.
  intros Hm Hd. rewrite !week_number_le_13 by lia.
  eexists _, _, _. repeat split.
  - unfold Spec.week_number_floor, Spec.day_of_year.
    apply Z.div_le_mono; lia.
  - apply week_number_floor_plus_7.
Qed.

Lemma week_number_later_day_witness :
  3 <= 13 /\ 1 <= 20
  /\ exists w w' w7,
       week_number 1 3 2024 = Ok w
       /\ week_number 20 3 2024 = Ok w'
       /\ week_number (1 + 7) 3 2024 = Ok w7
       /\ w <= w' /\ w7 = w + 1.
Proof.
  split; [lia | split; [lia |]].
  apply (week_number_later_day 1 20 3 2024); lia.
Defined.

(** X8: for a day in 1..31 and a month in 1..12 the week number lies in
    0..52, in every year. *)
Theorem week_number_bounds (day month year : Z) :
  1 <= day <= 31 -> 1 <= month <= 12 ->
  exists w, week_number day month year = Ok w /\ 0 <= w <= 52.
Proof.
  intros Hd Hm. rewrite week_number_le_13 by lia.
  eexists. split; [reflexivity |].
  unfold Spec.week_number_floor, Spec.day_of_year.
  destruct (is_leap_year year); split_range month; eval_days;
    Z.div_mod_to_equations; lia.
Qed.

Lemma week_number_bounds_witness :
  1 <= 31 <= 31 /\ 1 <= 12 <= 12
  /\ exists w, week_number 31 12 2024 = Ok w /\ 0 <= w <= 52.
Proof.
  split; [lia | split; [lia |]].
  apply (week_number_bounds 31 12 2024); lia.
Defined.

(** X9: the store [month_len[2] = 29] reaches only the months after
    February: up to February a leap year and a common year give the same
    week number, and from March to month 13 the leap year gives the week
    number the common year gives one day later. *)
Theorem week_number_leap_shift (day month y y' : Z) :
  is_leap_year y = true -> is_leap_year y' = false ->
  (month <= 2 -> week_number day month y = week_number day month y')
  /\ (3 <= month <= 13 ->
      week_number day month y = week_number (day + 1) month y').
Proof.
  intros Hy Hy'. split; intros Hm; rewrite !week_number_le_13 by lia;
    unfold Spec.week_number_floor, Spec.day_of_year; rewrite Hy, Hy'.
  - destruct (Z_le_gt_dec month 0) as [H0 | H0].
    + now rewrite !seqZ_nil by lia.
    + assert (H12 : 1 <= month <= 2) by lia. split_range month; reflexivity.
  - split_range month; eval_days; do 2 f_equal; lia.
Qed.

Lemma week_number_leap_shift_witness :
  is_leap_year 2024 = true /\ is_leap_year 2023 = false
  /\ (3 <= 3 <= 13 -> week_number 1 3 2024 = week_number (1 + 1) 3 2023).
Proof.
  split; [reflexivity | split; [reflexivity |]].
  apply (week_number_leap_shift 1 3 2024 2023); reflexivity.
Defined.

(** X10: for one day number and one year the week number does not
    decrease from a month to a later one, up to month 13. *)
Theorem week_number_monotone_month (day month month' year : Z) :
  month <= month' -> month' <= 13 ->
  exists w w',
    week_number day month year = Ok w
    /\ week_number day month' year = Ok w'
    /\ w <= w'.
Proof.
  intros Hm Hm'. rewrite !week_number_le_13 by lia.
  eexists _, _. split; [reflexivity | split; [reflexivity |]].
  unfold Spec.week_number_floor. apply Z.div_le_mono; [lia |].
  destruct (Z_le_gt_dec month 0) as [H0 | H0].
  - destruct (Z_le_gt_dec month' 0) as [H0' | H0'].
    + unfold Spec.day_of_year. rewrite !seqZ_nil by lia. lia.
    + transitivity (Spec.day_of_year day 1 year).
      * unfold Spec.day_of_year. rewrite !seqZ_nil by lia. lia.
      * apply day_of_year_month_step; lia.
  - apply day_of_year_month_step; lia.
Qed.

Lemma week_number_monotone_month_witness :
  2 <= 9 /\ 9 <= 13
  /\ exists w w',
       week_number 15 2 2023 = Ok w
       /\ week_number 15 9 2023 = Ok w'
       /\ w <= w'.
Proof.
  split; [lia | split; [lia |]].
  apply (week_number_monotone_month 15 2 9 2023); lia.
Defined.

(** ** [is_leap_year] *)

Lemma is_leap_year_plus_400 (year : Z) :
  is_leap_year (year + 400) = is_leap_year year.
Proof.
  unfold is_leap_year.
  replace ((year + 400) mod 4) with (year mod 4)
    by (Z.div_mod_to_equations; lia).
  replace ((year + 400) mod 100) with (year mod 100)
    by (Z.div_mod_to_equations; lia).
  replace ((year + 400) mod 400) with (year mod 400)
    by (Z.div_mod_to_equations; lia).
  reflexivity.
Qed.

Lemma is_leap_year_true (year : Z) :
  is_leap_year year = true
  <-> (year mod 4 = 0 /\ year mod 100 <> 0) \/ year mod 400 = 0.
Proof.
  unfold is_leap_year.
  now rewrite orb_true_iff, andb_true_iff, negb_true_iff, Z.eqb_neq, !Z.eqb_eq.
Qed.

Lemma is_leap_year_false (year : Z) :
  is_leap_year year = false
  <-> (year mod 4 <> 0 \/ year mod 100 = 0) /\ year mod 400 <> 0.
Proof.
  unfold is_leap_year.
  now rewrite orb_false_iff, andb_false_iff, negb_false_iff, Z.eqb_neq,
    Z.eqb_neq, Z.eqb_eq.
Qed.

Lemma leap_years_in_shift (y : Z) :
  leap_years_in (y + 1) 400 = leap_years_in y 400.
Proof.
  unfold leap_years_in.
  rewrite (seqZ_cons y 400) by lia.
  replace (Z.succ y) with (y + 1) by lia.
  change (Z.pred 400) with 399.
  change 400 with (399 + 1) at 1.
  rewrite seqZ_app by lia.
  rewrite List.filter_app, length_app.
  change (seqZ (y + 1 + 399) 1) with [0 + (y + 1 + 399)].
  replace (0 + (y + 1 + 399)) with (y + 400) by lia.
  cbn [List.filter]. rewrite is_leap_year_plus_400.
  destruct (is_leap_year y); cbn [length]; lia.
Qed.

(** X11: leap years repeat with period 400, and every 400 consecutive
    years, wherever they start, hold exactly 97 leap years. *)
Theorem leap_years_per_400 (year : Z) :
  is_leap_year (year + 400) = is_leap_year year
  /\ leap_years_in year 400 = 97%nat.
Proof.
  split; [apply is_leap_year_plus_400 |].
  induction year as [| y IH | y IH] using Z.peano_ind.
  - vm_compute. reflexivity.
  - replace (Z.succ y) with (y + 1) by lia.
    now rewrite leap_years_in_shift.
  - rewrite <- IH. symmetry.
    replace y with (Z.pred y + 1) at 1 by lia.
    apply leap_years_in_shift.
Qed.

(** X12: the three years after a leap year are not leap years, and the
    next leap year comes four years later, or eight when the fourth is a
    century year not divisible by 400. *)
Theorem leap_year_spacing (year : Z) :
  is_leap_year year = true ->
  is_leap_year (year + 1) = false
  /\ is_leap_year (year + 2) = false
  /\ is_leap_year (year + 3) = false
  /\ (is_leap_year (year + 4) = true
      \/ (is_leap_year (year + 4) = false
          /\ (year + 4) mod 100 = 0 /\ (year + 4) mod 400 <> 0
          /\ is_leap_year (year + 8) = true)).
Proof.
  intros H. apply is_leap_year_true in H.
  assert (H4 : year mod 4 = 0) by (Z.div_mod_to_equations; lia).
  repeat split.
  - apply is_leap_year_false. Z.div_mod_to_equations. lia.
  - apply is_leap_year_false. Z.div_mod_to_equations. lia.
  - apply is_leap_year_false. Z.div_mod_to_equations. lia.
  - destruct (is_leap_year (year + 4)) eqn:E; [now left | right].
    apply is_leap_year_false in E.
    assert (H100 : (year + 4) mod 100 = 0)
      by (Z.div_mod_to_equations; lia).
    repeat split; [exact H100 | tauto |].
    apply is_leap_year_true. left. Z.div_mod_to_equations. lia.
Qed.

Lemma leap_year_spacing_witness :
  is_leap_year 1896 = true
  /\ is_leap_year (1896 + 1) = false
  /\ is_leap_year (1896 + 2) = false
  /\ is_leap_year (1896 + 3) = false
  /\ (is_leap_year (1896 + 4) = true
      \/ (is_leap_year (1896 + 4) = false
          /\ (1896 + 4) mod 100 = 0 /\ (1896 + 4) mod 400 <> 0
          /\ is_leap_year (1896 + 8) = true)).
Proof.
  split; [reflexivity |].
  apply (leap_year_spacing 1896); reflexivity.
Defined.

(** ** [date_summary] *)

(** X13: for a month in 1..12 and a year >= 1753, the summary of the day
    seven later has the same leap-year flag and the same weekday, and a
    week number larger by one. *)
Theorem date_summary_week_later (day month year : Z) :
  1 <= month <= 12 -> 1753 <= year ->
  exists (wd : string) (wk : Z),
    date_summary day month year
    = Ok (summary_dict (is_leap_year year) wd wk)
    /\ date_summary (day + 7) month year
       = Ok (summary_dict (is_leap_year year) wd (wk + 1)).
Proof.
  intros Hm Hy.
  assert (Hwd : day_of_week (day + 7) month year
                = day_of_week day month year).
  { apply day_of_week_same_name_iff_aux; [lia .. |].
    exists 1. lia. }
  exists (Spec.day_of_week day month year),
         (Spec.week_number_floor day month year).
  unfold date_summary.
  rewrite Hwd, !week_number_le_13, week_number_floor_plus_7 by lia.
  rewrite day_of_week_valid by lia. split; reflexivity.
Qed.

Lemma date_summary_week_later_witness :
  1 <= 11 <= 12 /\ 1753 <= 2026
  /\ exists (wd : string) (wk : Z),
       date_summary 3 11 2026 = Ok (summary_dict (is_leap_year 2026) wd wk)
       /\ date_summary (3 + 7) 11 2026
          = Ok (summary_dict (is_leap_year 2026) wd (wk + 1)).
Proof.
  split; [lia | split; [lia |]].
  apply (date_summary_week_later 3 11 2026); lia.
Defined.

(** ** [day_of_week] and the day of the year of [week_number] *)

Lemma days_before_value (month year : Z) :
  month <= 13 ->
  sum_gen (subscript (month_len year)) (range 1 month) 0
  = Ok (foldr Z.add 0
          (Spec.month_length (is_leap_year year) <$> seqZ 1 (month - 1))).
Proof.
  intros Hm. unfold range.
  rewrite (sum_gen_ok _ (Spec.month_length (is_leap_year year))).
  - now rewrite Z.add_0_l.
  - intros m Hin. apply elem_of_seqZ in Hin.
    apply month_len_lookup. lia.
Qed.

(** Month code and leap correction follow the days before the month, up
    to a constant of the year. *)
Lemma month_code_tracks_days (month year : Z) :
  1 <= month <= 12 ->
  (Spec.month_code month + Spec.leap_correction year month
   - foldr Z.add 0
       (Spec.month_length (is_leap_year year) <$> seqZ 1 (month - 1))) mod 7
  = (if is_leap_year year then 0 else 1).
Proof.
  intros Hm. unfold Spec.leap_correction.
  destruct (is_leap_year year); split_range month; reflexivity.
Qed.

(** X14: within one year >= 1753, two dates have the same weekday exactly
    when their days of the year, each the day plus the sum [week_number]
    takes over the preceding months, differ by a multiple of 7. *)
Theorem day_of_week_by_day_of_year (d m d' m' year s s' : Z) :
  1 <= m <= 12 -> 1 <= m' <= 12 -> 1753 <= year ->
  sum_gen (subscript (month_len year)) (range 1 m) 0 = Ok s ->
  sum_gen (subscript (month_len year)) (range 1 m') 0 = Ok s' ->
  day_of_week d m year = day_of_week d' m' year
  <-> (7 | (d + s) - (d' + s')).
Proof.
  intros Hm Hm' Hy Hs Hs'.
  rewrite days_before_value in Hs, Hs' by lia.
  injection Hs as Hs. injection Hs' as Hs'.
  pose proof (month_code_tracks_days m year Hm) as H1.
  pose proof (month_code_tracks_days m' year Hm') as H2.
  rewrite Hs in H1. rewrite Hs' in H2.
  rewrite day_of_week_eq_iff by lia.
  rewrite <- Z.mod_divide by lia.
  unfold Spec.base.
  set (a := Spec.month_code m + Spec.leap_correction year m) in *.
  set (a' := Spec.month_code m' + Spec.leap_correction year m') in *.
  set (k := if is_leap_year year then 0 else 1) in *.
  match goal with |- ?lhs mod 7 = 0 <-> _ =>
    replace lhs with (d - d' + a - a') by (subst a a'; lia) end.
  clearbody a a' k.
  split; intros H; Z.div_mod_to_equations; lia.
Qed.

Lemma day_of_week_by_day_of_year_witness :
  1 <= 2 <= 12 /\ 1 <= 3 <= 12 /\ 1753 <= 2024
  /\ sum_gen (subscript (month_len 2024)) (range 1 2) 0 = Ok 31
  /\ sum_gen (subscript (month_len 2024)) (range 1 3) 0 = Ok 60
  /\ (day_of_week 29 2 2024 = day_of_week 7 3 2024
      <-> (7 | (29 + 31) - (7 + 60))).
Proof.
  split; [lia | split; [lia | split; [lia |]]].
  split; [reflexivity | split; [reflexivity |]].
  apply (day_of_week_by_day_of_year 29 2 7 3 2024 31 60);
    first [lia | reflexivity].
Defined.
